(** * Multi-factor enrollment wizard of the web client

    Shallow embedding of
    [apps/web/src/components/dialogs/multifactordialog.tsx]:
    the two step registries [steps] and [fallbackSteps], the transition
    handler of [MultifactorDialog], the code form of
    [VerifyAuthenticatorForm], the submit handler of
    [AuthenticatorSelector], the phone-number field of [SetupSMS] and the
    [generate] callback of [BackupRecoveryCodes].

    JavaScript values that flow through [onNext(...args)] are modelled by
    [Value]; a property access or call that throws a [TypeError] makes the
    modelled function return [None].

    Further sections embed the notebook list item of the web client and
    the mobile [Dialog] and [UserSection] handlers. *)

From Stdlib Require Import String List Bool Arith.
From Stdlib Require DecimalString.
Import ListNotations.
Open Scope string_scope.
Open Scope list_scope.

(** ** Data model *)

(** [type AuthenticatorType = "app" | "sms" | "email"] *)
Inductive AuthenticatorType := App | Sms | Email.

Definition AuthenticatorType_eqb (a b : AuthenticatorType) : bool :=
  match a, b with
  | App, App | Sms, Sms | Email, Email => true
  | _, _ => false
  end.

(** [type Authenticator]; the [icon] field (a React component) is not
    modelled. [recommended?: boolean] is an optional field. *)
Record Authenticator := mkAuthenticator {
  auth_type : AuthenticatorType;
  auth_title : string;
  auth_subtitle : string;
  auth_recommended : option bool
}.

(** [const defaultAuthenticators = ["app", "sms", "email"]] *)
Definition defaultAuthenticators : list AuthenticatorType := [App; Sms; Email].

(** [const Authenticators] (the method catalog). *)
Definition Authenticators : list Authenticator := [
  mkAuthenticator App "Set up using an Authenticator app"
    "Use an authenticator app like Aegis or Raivo Authenticator to get the authentication codes."
    (Some true);
  mkAuthenticator Sms "Set up using SMS"
    "Notesnook will send you an SMS text with the 2FA code at login." None;
  mkAuthenticator Email "Set up using Email"
    "Notesnook will send you the 2FA code on your email at login." None
].

(** The JavaScript values passed through [onNext(...args)]: an
    [Authenticator] object (from [ChooseAuthenticator]), an
    [AuthenticatorType] string (from [AuthenticatorSelector],
    [BackupRecoveryCodes] and the trailing [primaryMethod]) or
    [undefined] (a missing argument). *)
Inductive Value :=
  | VAuth (a : Authenticator)
  | VType (t : AuthenticatorType)
  | VUndefined.

(** [args[i]], [undefined] past the end. *)
Definition arg (args : list Value) (i : nat) : Value := nth i args VUndefined.

(** [v.title] / [v.subtitle]: a string has no such property
    ([undefined]); reading a property of [undefined] throws. *)
Definition title_of (v : Value) : option (option string) :=
  match v with
  | VAuth a => Some (Some (auth_title a))
  | VType _ => Some None
  | VUndefined => None
  end.

Definition subtitle_of (v : Value) : option (option string) :=
  match v with
  | VAuth a => Some (Some (auth_subtitle a))
  | VType _ => Some None
  | VUndefined => None
  end.

(** [type StepKeys = "choose" | "setup" | "recoveryCodes" | "finish"] *)
Inductive StepKey := Choose | Setup | RecoveryCodes | Finish.

Definition StepKey_eqb (a b : StepKey) : bool :=
  match a, b with
  | Choose, Choose | Setup, Setup | RecoveryCodes, RecoveryCodes
  | Finish, Finish => true
  | _, _ => false
  end.

(** The [component] closures of the step descriptors, each with the values
    it captured when its factory ran. *)
Inductive StepComponent :=
  (** [<ChooseAuthenticator authenticators={...} />] *)
  | CChooseAuthenticator (authenticators : list AuthenticatorType)
  (** [<AuthenticatorSelector authenticator={authenticator.type} isFallback? />] *)
  | CAuthenticatorSelector (authenticator : Value) (isFallback : bool)
  (** [<BackupRecoveryCodes authenticatorType={...} />] *)
  | CBackupRecoveryCodes (authenticatorType : Value)
  (** [<TwoFactorEnabled authenticatorType={...} />] *)
  | CTwoFactorEnabled (authenticatorType : Value)
  (** [<Fallback2FAEnabled fallbackMethod={...} primaryMethod={...} />] *)
  | CFallback2FAEnabled (fallbackMethod primaryMethod : Value).

(** [type Step] (and [FallbackStep], which only narrows [next]). *)
Record Step := mkStep {
  title : option string;
  description : option string;
  component : option StepComponent;
  next : option StepKey;
  cancellable : option bool
}.

(** JavaScript truthiness of an optional boolean. *)
Definition truthy (b : option bool) : bool :=
  match b with Some true => true | _ => false end.

(** Which callbacks of [StepComponentProps] a component closure forwards
    to the element it renders: [choose] and [setup] destructure only
    [{ onNext }], [recoveryCodes] and [finish] take
    [{ onNext, onClose, onError }], the fallback [finish] takes
    [{ onNext, onClose }]. *)
Definition forwards_onError (c : StepComponent) : bool :=
  match c with
  | CChooseAuthenticator _ => false
  | CAuthenticatorSelector _ _ => false
  | CBackupRecoveryCodes _ => true
  | CTwoFactorEnabled _ => true
  | CFallback2FAEnabled _ _ => false
  end.

(** ** Step registries *)

(** The description of [steps.recoveryCodes]. *)
Definition recovery_codes_description (authenticatorType : Value) : string :=
  "If you lose access to your " ++
  (match authenticatorType with
   | VType Email => "email"
   | VType Sms => "phone"
   | _ => "auth app"
   end) ++
  ", you can login to Notesnook using your recovery codes. Each code can only be used once!".

(** [steps.choose()] *)
Definition steps_choose (_ : list Value) : option Step :=
  Some (mkStep (Some "Protect your notes by enabling 2FA")
    (Some "Choose how you want to receive your authentication codes.")
    (Some (CChooseAuthenticator defaultAuthenticators))
    (Some Setup) (Some true)).

(** [steps.setup(authenticator)] *)
Definition steps_setup (args : list Value) : option Step :=
  let authenticator := arg args 0 in
  match title_of authenticator, subtitle_of authenticator with
  | Some t, Some d =>
      Some (mkStep t d (Some (CAuthenticatorSelector authenticator false))
              (Some RecoveryCodes) None)
  | _, _ => None
  end.

(** [steps.recoveryCodes(authenticatorType)] *)
Definition steps_recoveryCodes (args : list Value) : option Step :=
  let authenticatorType := arg args 0 in
  Some (mkStep (Some "Save your recovery codes")
    (Some (recovery_codes_description authenticatorType))
    (Some (CBackupRecoveryCodes authenticatorType))
    (Some Finish) None).

(** [steps.finish(authenticatorType)] *)
Definition steps_finish (args : list Value) : option Step :=
  Some (mkStep None None (Some (CTwoFactorEnabled (arg args 0))) None None).

(** [steps[key]]: every key of [StepKeys] is present. *)
Definition steps (k : StepKey) : list Value -> option Step :=
  match k with
  | Choose => steps_choose
  | Setup => steps_setup
  | RecoveryCodes => steps_recoveryCodes
  | Finish => steps_finish
  end.

(** [defaultAuthenticators.filter((i) => i !== primaryMethod)], for a
    catalog given as argument. *)
Definition without_method (catalog : list AuthenticatorType) (m : Value)
  : list AuthenticatorType :=
  filter (fun i => match m with
                   | VType p => negb (AuthenticatorType_eqb i p)
                   | _ => true
                   end) catalog.

(** [fallbackSteps.choose(primaryMethod)] *)
Definition fallbackSteps_choose (args : list Value) : option Step :=
  let primaryMethod := arg args 0 in
  Some (mkStep (Some "Add a fallback 2FA method")
    (Some "A fallback method helps you get your 2FA codes on an alternative device in case you lose your primary device.")
    (Some (CChooseAuthenticator (without_method defaultAuthenticators primaryMethod)))
    (Some Setup) (Some true)).

(** [fallbackSteps.setup(authenticator)] *)
Definition fallbackSteps_setup (args : list Value) : option Step :=
  let authenticator := arg args 0 in
  match title_of authenticator, subtitle_of authenticator with
  | Some t, Some d =>
      Some (mkStep t d (Some (CAuthenticatorSelector authenticator true))
              (Some Finish) (Some true))
  | _, _ => None
  end.

(** [fallbackSteps.finish(fallbackMethod, primaryMethod)] *)
Definition fallbackSteps_finish (args : list Value) : option Step :=
  Some (mkStep None None
    (Some (CFallback2FAEnabled (arg args 0) (arg args 1))) None None).

(** [fallbackSteps[key]]: [recoveryCodes] is not a key of the table
    ([undefined]). *)
Definition fallbackSteps (k : StepKey) : option (list Value -> option Step) :=
  match k with
  | Choose => Some fallbackSteps_choose
  | Setup => Some fallbackSteps_setup
  | RecoveryCodes => None
  | Finish => Some fallbackSteps_finish
  end.

(** ** Wizard controller: [MultifactorDialog] *)

(** Outcome of the [onNext] handler: [onClose()], [setStep(nextStep)], or
    a [TypeError] thrown out of the handler (calling an [undefined]
    factory, or a factory that throws), which leaves the state alone. *)
Inductive NextOutcome :=
  | NClose
  | NSetStep (s : Step)
  | NThrow.

(** The [onNext={(...args) => { ... }}] handler, [primaryMethod] being
    the optional dialog prop (an [AuthenticatorType] string is always
    truthy). *)
Definition on_next (primaryMethod : option AuthenticatorType) (step : Step)
  (args : list Value) : NextOutcome :=
  match next step with
  | None => NClose
  | Some k =>
      let nextStepCreator :=
        if negb (StepKey_eqb k RecoveryCodes) && (match primaryMethod with Some _ => true | None => false end)
        then fallbackSteps k
        else Some (steps k) in
      let callArgs :=
        match primaryMethod with
        | Some p => args ++ [VType p]
        | None => args
        end in
      match nextStepCreator with
      | None => NThrow
      | Some f =>
          match f callArgs with
          | Some s => NSetStep s
          | None => NThrow
          end
      end
  end.

(** Dialog state: the [step] and [error] React states while open
    ([useState<string>()] starts [undefined]), or closed by [onClose]. *)
Inductive DState :=
  | DOpen (step : Step) (error : option string)
  | DClosed.

(** Initial state: [primaryMethod ? fallbackSteps.choose(primaryMethod)
    : steps.choose()], no error. *)
Definition initial_step (primaryMethod : option AuthenticatorType) : option Step :=
  match primaryMethod with
  | Some p => fallbackSteps_choose [VType p]
  | None => steps_choose []
  end.

Definition initial_state (primaryMethod : option AuthenticatorType) : DState :=
  match initial_step primaryMethod with
  | Some s => DOpen s None
  | None => DClosed
  end.

(** Events reaching the dialog: the step body's [onNext(...args)], its
    [onError(message)] (bound to [setError]), and a click on the
    negative ("Cancel") button. *)
Inductive Event :=
  | EvNext (args : list Value)
  | EvError (message : string)
  | EvCancel.

(** The negative button is rendered (with [onClick: onClose]) only when
    [step.cancellable] is truthy; otherwise there is nothing to click. *)
Definition dstep (primaryMethod : option AuthenticatorType) (st : DState)
  (ev : Event) : DState :=
  match st with
  | DClosed => DClosed
  | DOpen s e =>
      match ev with
      | EvNext args =>
          match on_next primaryMethod s args with
          | NClose => DClosed
          | NSetStep s' => DOpen s' e
          | NThrow => DOpen s e
          end
      | EvError msg => DOpen s (Some msg)
      | EvCancel => if truthy (cancellable s) then DClosed else DOpen s e
      end
  end.

Fixpoint deliver (primaryMethod : option AuthenticatorType) (st : DState)
  (evs : list Event) : DState :=
  match evs with
  | [] => st
  | ev :: evs' => deliver primaryMethod (dstep primaryMethod st ev) evs'
  end.

(** States reachable in one dialog session. *)
Inductive reachable (primaryMethod : option AuthenticatorType) : DState -> Prop :=
  | reach_init : reachable primaryMethod (initial_state primaryMethod)
  | reach_step st ev :
      reachable primaryMethod st ->
      reachable primaryMethod (dstep primaryMethod st ev).

(** ** Step bodies *)

(** Calls into the [db.mfa] verification adapter. *)
Inductive AdapterCall :=
  | CallSetup (method : AuthenticatorType) (phoneNumber : option string)
  | CallEnable (method : AuthenticatorType) (code : string)
  | CallEnableFallback (method : AuthenticatorType) (code : string)
  | CallCodes.

(** [VerifyAuthenticatorForm]'s [onSubmit]: [form.get("code")] is
    [null] or a string; [if (!code || code.toString().length !== 6)
    return;] else [onSubmitCode(code)]. *)
Definition verify_form_submit (code : option string) : option string :=
  match code with
  | None => None
  | Some c =>
      if String.eqb c "" then None
      else if Nat.eqb (String.length c) 6 then Some c else None
  end.

(** [AuthenticatorSelector]'s [onSubmitCode]: [enableFallback] or
    [enable], then [onNext(authenticator)]; on a rejection
    ([enableResult = Some message], the adapter throws) the step calls
    [onError && onError(error.message)], which does nothing when the
    [onError] prop was not passed. Returns the adapter calls made and the
    events delivered to the dialog. *)
Definition onSubmitCode (authenticator : AuthenticatorType) (isFallback : bool)
  (hasOnError : bool) (enableResult : option string) (code : string)
  : list AdapterCall * list Event :=
  let call := if isFallback then CallEnableFallback authenticator code
              else CallEnable authenticator code in
  match enableResult with
  | None => ([call], [EvNext [VType authenticator]])
  | Some message => ([call], if hasOnError then [EvError message] else [])
  end.

(** A code submitted through the form of an [AuthenticatorSelector]. *)
Definition selector_submit (authenticator : AuthenticatorType) (isFallback : bool)
  (hasOnError : bool) (enableResult : option string) (code : option string)
  : list AdapterCall * list Event :=
  match verify_form_submit code with
  | None => ([], [])
  | Some c => onSubmitCode authenticator isFallback hasOnError enableResult c
  end.

(** [authenticator.type] as rendered by the [setup] component. *)
Definition type_of (v : Value) : option AuthenticatorType :=
  match v with
  | VAuth a => Some (auth_type a)
  | _ => None
  end.

(** A code submitted on the current step of an open dialog whose
    component is an [AuthenticatorSelector]: the step body's events are
    delivered to the dialog. *)
Definition submit_code (primaryMethod : option AuthenticatorType) (st : DState)
  (enableResult : option string) (code : option string)
  : list AdapterCall * DState :=
  match st with
  | DOpen s e =>
      match component s with
      | Some (CAuthenticatorSelector v isFallback as c) =>
          match type_of v with
          | Some t =>
              let '(calls, evs) :=
                selector_submit t isFallback (forwards_onError c) enableResult code in
              (calls, deliver primaryMethod st evs)
          | None => ([], st)
          end
      | _ => ([], st)
      end
  | DClosed => ([], st)
  end.

(** *** [SetupSMS] *)

(** The React state of [SetupSMS]: [error] and [phoneNumber] start
    [undefined]; [isSending]; [enabled] is the resend timer's flag. *)
Record SmsState := mkSmsState {
  sms_error : option string;
  phoneNumber : option string;
  isSending : bool;
  enabled : bool
}.

(** JavaScript truthiness of an optional string. *)
Definition str_truthy (s : option string) : bool :=
  match s with
  | Some v => negb (String.eqb v "")
  | None => false
  end.

Inductive SmsEvent :=
  | SmsChange (input : string)   (** the phone field's [onChange] *)
  | SmsClick.                    (** the field's "Send code" action *)

Definition invalid_phone_message : string :=
  "Please enter a valid phone number with country code.".

Definition missing_phone_message : string := "Please provide a phone number.".

(** The field's [onChange]: [phone] is the external validator
    ([Some normalized] when [isValid]). *)
Definition sms_onChange (phone : string -> option string) (st : SmsState)
  (number : string) : SmsState :=
  if String.eqb number "" then
    mkSmsState (Some "") (phoneNumber st) (isSending st) (enabled st)
  else
    match phone number with
    | Some normalized => mkSmsState (Some "") (Some normalized) (isSending st) (enabled st)
    | None => mkSmsState (Some invalid_phone_message) (Some "") (isSending st) (enabled st)
    end.

(** The action's [onClick]: [db.mfa!.setup("sms", phoneNumber)] resolves
    ([setupResult = None]) or throws [Some message]; the [finally]
    clears [isSending]. *)
Definition sms_onClick (setupResult : option string) (st : SmsState)
  : SmsState * list AdapterCall :=
  match phoneNumber st with
  | Some n =>
      if String.eqb n "" then
        (mkSmsState (Some missing_phone_message) (phoneNumber st) (isSending st) (enabled st), [])
      else
        match setupResult with
        | None => (mkSmsState (sms_error st) (phoneNumber st) false false,
                   [CallSetup Sms (Some n)])
        | Some message => (mkSmsState (Some message) (phoneNumber st) false (enabled st),
                           [CallSetup Sms (Some n)])
        end
  | None =>
      (mkSmsState (Some missing_phone_message) (phoneNumber st) (isSending st) (enabled st), [])
  end.

(** [disabled: error || isSending || !enabled]: a disabled action cannot
    be clicked. *)
Definition sms_action_disabled (st : SmsState) : bool :=
  str_truthy (sms_error st) || isSending st || negb (enabled st).

Definition sms_step (phone : string -> option string) (setupResult : option string)
  (st : SmsState) (ev : SmsEvent) : SmsState * list AdapterCall :=
  match ev with
  | SmsChange number => (sms_onChange phone st number, [])
  | SmsClick =>
      if sms_action_disabled st then (st, []) else sms_onClick setupResult st
  end.

Fixpoint sms_run (phone : string -> option string) (setupResult : option string)
  (st : SmsState) (evs : list SmsEvent) : SmsState * list AdapterCall :=
  match evs with
  | [] => (st, [])
  | ev :: evs' =>
      let '(st1, c1) := sms_step phone setupResult st ev in
      let '(st2, c2) := sms_run phone setupResult st1 evs' in
      (st2, c1 ++ c2)
  end.

(** *** [BackupRecoveryCodes] *)

(** Result of [await db.mfa?.codes()]: a thrown error, [undefined]
    ([db.mfa] absent), or an array of codes (truthy even when empty). *)
Inductive CodesResult :=
  | CodesThrow (message : string)
  | CodesUndefined
  | CodesArray (codes : list string).

(** [generate]: [onError("")], then [if (codes) setCodes(codes)], or
    [onError(error.message)] on a throw. Returns the displayed codes and
    the events delivered through [onError]. *)
Definition generate (codes : list string) (result : CodesResult)
  : list string * list Event :=
  match result with
  | CodesThrow message => (codes, [EvError ""; EvError message])
  | CodesUndefined => (codes, [EvError ""])
  | CodesArray fresh => (fresh, [EvError ""])
  end.

(** *** Driving the wizard through its step bodies *)

(** [ChooseAuthenticator]: [authenticators.map((a) =>
    Authenticators.find((auth) => auth.type === a)!)] ([undefined] when
    not found). *)
Definition find_authenticator (a : AuthenticatorType) : Value :=
  match find (fun auth => AuthenticatorType_eqb (auth_type auth) a) Authenticators with
  | Some auth => VAuth auth
  | None => VUndefined
  end.

(** Its [onSubmit]: [onNext(filteredAuthenticators[selected])], where
    [selected] is the session value ["selectedAuthenticator"] (default
    [0]); an index past the end reads [undefined]. *)
Definition choose_submit (authenticators : list AuthenticatorType) (selected : nat)
  : Value :=
  nth selected (map find_authenticator authenticators) VUndefined.

(** User actions on the current step body: submitting the choose form
    with a selected index, submitting a code (with the adapter's answer
    to [enable]/[enableFallback]), and submitting the recovery-codes form
    ([onNext(props.authenticatorType)]). *)
Inductive UserAction :=
  | UChoose (selected : nat)
  | UCode (code : option string) (enableResult : option string)
  | UContinueCodes.

Definition act (primaryMethod : option AuthenticatorType) (st : DState)
  (ua : UserAction) : list AdapterCall * DState :=
  match st with
  | DOpen s _ =>
      match component s, ua with
      | Some (CChooseAuthenticator l), UChoose selected =>
          ([], deliver primaryMethod st [EvNext [choose_submit l selected]])
      | Some (CAuthenticatorSelector _ _), UCode code r =>
          submit_code primaryMethod st r code
      | Some (CBackupRecoveryCodes v), UContinueCodes =>
          ([], deliver primaryMethod st [EvNext [v]])
      | _, _ => ([], st)
      end
  | DClosed => ([], DClosed)
  end.


(** *** [SetupEmail] *)

(** [isSending], [error] and the resend timer's [enabled] flag. *)
Record EmailState := mkEmailState {
  email_error : option string;
  email_isSending : bool;
  email_enabled : bool
}.

(** The "Send code" button: [disabled={isSending || !enabled}];
    [onClick] awaits [db.mfa!.setup("email")], then [setEnabled(false)],
    or [setError(error.message)] on a throw; [finally] clears
    [isSending]. *)
Definition email_click (setupResult : option string) (st : EmailState)
  : EmailState * list AdapterCall :=
  if email_isSending st || negb (email_enabled st) then (st, [])
  else
    match setupResult with
    | None => (mkEmailState (email_error st) false false, [CallSetup Email None])
    | Some message => (mkEmailState (Some message) false (email_enabled st),
                       [CallSetup Email None])
    end.

Fixpoint email_clicks (setupResult : option string) (st : EmailState) (n : nat)
  : EmailState * list AdapterCall :=
  match n with
  | 0 => (st, [])
  | S n' =>
      let '(st1, c1) := email_click setupResult st in
      let '(st2, c2) := email_clicks setupResult st1 n' in
      (st2, c1 ++ c2)
  end.

(** *** Recovery code export and method phrases *)

Definition newline : Ascii.ascii := Ascii.ascii_of_nat 10.

(** [codes.join("\n")] (Copy and Download). *)
Fixpoint join_lines (codes : list string) : string :=
  match codes with
  | [] => ""
  | [c] => c
  | c :: rest => c ++ String newline "" ++ join_lines rest
  end.

(** Reading the exported text back line by line
    ([text.split("\n")]). *)
Fixpoint split_lines (s : string) : list string :=
  match s with
  | EmptyString => [""]
  | String ch s' =>
      if Ascii.eqb ch newline then "" :: split_lines s'
      else match split_lines s' with
           | h :: t => String ch h :: t
           | [] => [String ch ""]
           end
  end.

Fixpoint has_newline (s : string) : bool :=
  match s with
  | EmptyString => false
  | String ch s' => Ascii.eqb ch newline || has_newline s'
  end.

(** [mfaMethodToPhrase] *)
Definition mfaMethodToPhrase (method : AuthenticatorType) : string :=
  match method with
  | Email => "email"
  | App => "authentication app"
  | Sms => "phone number"
  end.

(** The candidates a session's [choose] step offers. *)
Definition offered (primaryMethod : option AuthenticatorType) : list AuthenticatorType :=
  match primaryMethod with
  | Some p => without_method defaultAuthenticators (VType p)
  | None => defaultAuthenticators
  end.


(** * [apps/web/src/components/notebook/index.js] *)

Record Topic := mkTopic { topic_id : string; topic_title : string }.

(** The notebook fields the list item reads; [pinned], [title] and
    [description] may be absent ([undefined]). *)
Record Notebook := mkNotebook {
  nb_id : string;
  nb_title : option string;
  nb_description : option string;
  nb_pinned : option bool;
  nb_topics : list Topic;
  nb_dateCreated : nat
}.

Definition opt_eqb {A} (eqb : A -> A -> bool) (x y : option A) : bool :=
  match x, y with
  | Some a, Some b => eqb a b
  | None, None => true
  | _, _ => false
  end.

(** [Notebook.shouldComponentUpdate]: strict inequality of [pinned],
    [title], [description] or of [topics.length]. *)
Definition shouldComponentUpdate (prevItem nextItem : Notebook) : bool :=
  negb (opt_eqb Bool.eqb (nb_pinned prevItem) (nb_pinned nextItem)) ||
  negb (opt_eqb String.eqb (nb_title prevItem) (nb_title nextItem)) ||
  negb (opt_eqb String.eqb (nb_description prevItem) (nb_description nextItem)) ||
  negb (Nat.eqb (length (nb_topics prevItem)) (length (nb_topics nextItem))).

(** The footer's topic tags: [notebook.topics.slice(0, 3).map(...)],
    each an [IconTag] with the topic's title whose click navigates to
    [`/notebooks/${notebook.id}/${topic.id}`]. *)
Definition topic_tags (notebook : Notebook) : list (string * string) :=
  map (fun topic => (topic_title topic,
                     ("/notebooks/" ++ nb_id notebook ++ "/" ++ topic_id topic)%string))
      (firstn 3 (nb_topics notebook)).

(** * Mobile [Dialog] ([src/unnamed/part_000]) *)

(** The fields of the selected items the handlers read; [dateCreated]
    is a timestamp, truthy unless absent or [0]. *)
Record Item := mkItem {
  it_type : string;
  it_id : string;
  it_title : string;
  it_notebookId : string;
  it_dateCreated : option nat
}.

Definition date_truthy (d : option nat) : bool :=
  match d with Some (S _) => true | _ => false end.

(** [dialogActions.*] *)
Inductive DialogAction :=
  | ACTION_DELETE | ACTION_PERMANANT_DELETE | ACTION_EXIT | ACTION_NEW_NOTE
  | ACTION_EMPTY_TRASH | ACTION_EXIT_FULLSCREEN | ACTION_TRASH
  | ACTION_APPLY_CHANGES | ACTION_OTHER.

(** Payloads of [updateEvent]: [{type: it.type}] or one of the
    [Actions] constants. *)
Inductive UpdateType :=
  | UType (t : string)
  | UPinned | UTrash | UClearSelection | USelectionMode (enabled : bool) | UNotes.

(** Effects of the handlers, in order; database calls are awaited and
    resolve. [ToastEvent.show(message, type, ..., undo)] records the
    message ([None] for [undefined]), the type if given and the items of
    an undo action. *)
Inductive DialogEffect :=
  | DbNotesDelete (id : string)
  | DbTopicsDelete (notebookId title : string)
  | DbNotebooksDelete (id : string)
  | DbTrashDelete (ids : list string)
  | DbTrashClear
  | DbTrashRestore (id : string)
  | Update (u : UpdateType)
  | SendEvent (name : string)
  | Toast (message : option string) (kind : option string) (undo : option (list Item))
  | Hide
  | GoBack
  | SetInvisible.

(** The result of an async handler: its effects, the global
    [history.selectedItemsList] afterwards, and whether it threw. *)
Record DialogOutcome := mkOutcome {
  effects : list DialogEffect;
  selection : list Item;
  threw : bool
}.

(** One iteration of the deletion loop. *)
Definition delete_item_effects (it : Item) : list DialogEffect :=
  if String.eqb (it_type it) "note" then
    [DbNotesDelete (it_id it); Update (UType (it_type it)); SendEvent "eClearEditor"]
  else if String.eqb (it_type it) "topic" then
    [DbTopicsDelete (it_notebookId it) (it_title it); SendEvent "eOnNewTopicAdded";
     Update (UType "notebook"); Toast (Some "Topics deleted") (Some "success") None]
  else if String.eqb (it_type it) "notebook" then
    [DbNotebooksDelete (it_id it); Update (UType (it_type it))]
  else [].

Definition string_of_nat (n : nat) : string :=
  DecimalString.NilZero.string_of_uint (Nat.to_uint n).

Definition count_type (t : string) (sel : list Item) : nat :=
  length (filter (fun o => String.eqb (it_type o) t) sel).

(** The toast [message] of [ACTION_DELETE] ([undefined] unless the
    selection holds a single kind among notes, notebooks, topics). *)
Definition delete_message (sel : list Item) : option string :=
  let notes := count_type "note" sel in
  let notebooks := count_type "notebook" sel in
  let topics := count_type "topic" sel in
  if (Nat.ltb 0 notes) && (Nat.eqb notebooks 0) && (Nat.eqb topics 0) then
    Some (string_of_nat notes ++ (if Nat.ltb 1 notes then " notes" else " note") ++
          " moved to trash")%string
  else if (Nat.eqb notes 0) && (Nat.ltb 0 notebooks) && (Nat.eqb topics 0) then
    Some (string_of_nat notebooks ++ (if Nat.ltb 1 notebooks then " notebooks" else " notebook") ++
          " moved to trash")%string
  else if (Nat.eqb notes 0) && (Nat.eqb notebooks 0) && (Nat.ltb 0 topics) then
    Some (string_of_nat topics ++ (if Nat.ltb 1 topics then " topics" else " topic") ++
          " moved to trash")%string
  else None.

(** [if (item.dateCreated && history.selectedItemsList.length === 0)
    history.selectedItemsList = [item]]. *)
Definition default_selection (item : Item) (sel : list Item) : list Item :=
  if date_truthy (it_dateCreated item) && Nat.eqb (length sel) 0 then [item] else sel.

Definition clear_selection_effects : list DialogEffect :=
  [Update UClearSelection; Update (USelectionMode false)].

(** [_onPress]. The [var i] of the deletion loops is hoisted to the whole
    handler, so in [ACTION_TRASH] it is still [undefined] and [i.id]
    throws. *)
Definition onPress (action : DialogAction) (item : Item) (sel0 : list Item)
  : DialogOutcome :=
  match action with
  | ACTION_DELETE =>
      let sel := default_selection item sel0 in
      let loop := flat_map delete_item_effects sel ++ [Update UPinned] in
      match sel with
      | [] => mkOutcome loop sel true
      | first :: _ =>
          let toast := if String.eqb (it_type first) "topic" then []
                       else [Toast (delete_message sel) (Some "success") (Some sel)] in
          mkOutcome (loop ++ toast ++ clear_selection_effects ++ [Hide]) sel false
      end
  | ACTION_PERMANANT_DELETE =>
      let sel := default_selection item sel0 in
      mkOutcome ([DbTrashDelete (map it_id sel); Update UTrash] ++ clear_selection_effects ++
                 [Toast (Some "Item permanantly deleted") None None; Hide]) sel false
  | ACTION_EXIT => mkOutcome [SetInvisible; GoBack; Hide] sel0 false
  | ACTION_NEW_NOTE => mkOutcome [SendEvent "eOnLoadNote"; Hide] sel0 false
  | ACTION_EMPTY_TRASH =>
      mkOutcome ([DbTrashClear; Update UTrash] ++ clear_selection_effects ++
                 [Toast (Some "Trash cleared") (Some "error") None; Hide]) sel0 false
  | ACTION_EXIT_FULLSCREEN =>
      mkOutcome [Update UNotes; SendEvent "eCloseFullscreenEditor"; Hide] sel0 false
  | ACTION_TRASH => mkOutcome [] sel0 true
  | ACTION_APPLY_CHANGES => mkOutcome [SendEvent "eApplyChanges"; Hide] sel0 false
  | ACTION_OTHER => mkOutcome [] sel0 false
  end.




(** * Mobile [UserSection] ([apps/mobile/src/components/Menu/UserSection.js]) *)





(** ** Sanity checks on concrete inputs *)

Definition app_authenticator : Authenticator := nth 0 Authenticators
  (mkAuthenticator App "" "" None).

Definition sms_authenticator : Authenticator := nth 1 Authenticators
  (mkAuthenticator Sms "" "" None).

Example primary_path_to_recovery_codes :
  match deliver None (initial_state None)
          [EvNext [VAuth app_authenticator]; EvNext [VType App]] with
  | DOpen s _ => component s = Some (CBackupRecoveryCodes (VType App))
  | DClosed => False
  end.
Proof. reflexivity. Qed.

Example fallback_path_to_finish :
  match deliver (Some App) (initial_state (Some App))
          [EvNext [VAuth app_authenticator]; EvNext [VType Sms]] with
  | DOpen s _ => component s = Some (CFallback2FAEnabled (VType Sms) (VType App))
  | DClosed => False
  end.
Proof. reflexivity. Qed.

Example verify_form_rejects_short : verify_form_submit (Some "12345") = None.
Proof. reflexivity. Qed.

(** ** Helper definitions and lemmas *)

(** Calling a looked-up factory, as the [onNext] handler does. *)
Definition call_factory (creator : option (list Value -> option Step))
  (callArgs : list Value) : NextOutcome :=
  match creator with
  | None => NThrow
  | Some f => match f callArgs with Some s => NSetStep s | None => NThrow end
  end.

(** A step descriptor produced by one of the [fallbackSteps] factories. *)
Definition fallback_step (s : Step) : Prop :=
  exists args, fallbackSteps_choose args = Some s \/
               fallbackSteps_setup args = Some s \/
               fallbackSteps_finish args = Some s.

Lemma fallback_step_next (s : Step) :
  fallback_step s -> next s = Some Setup \/ next s = Some Finish \/ next s = None.
Proof.
  intros [args [H | [H | H]]].
  - injection H as <-. auto.
  - unfold fallbackSteps_setup in H.
    destruct (title_of (arg args 0)), (subtitle_of (arg args 0)); try discriminate.
    injection H as <-. auto.
  - injection H as <-. auto.
Qed.

Lemma fallback_step_on_next (p : AuthenticatorType) (s s' : Step) (args : list Value) :
  fallback_step s -> on_next (Some p) s args = NSetStep s' -> fallback_step s'.
Proof.
  intros Hs Hn. unfold on_next in Hn.
  destruct (fallback_step_next s Hs) as [E | [E | E]]; rewrite E in Hn; simpl in Hn.
  - destruct (fallbackSteps_setup (args ++ [VType p])) eqn:F; inversion Hn; subst.
    exists (args ++ [VType p]). auto.
  - injection Hn as <-. exists (args ++ [VType p]). auto.
  - discriminate.
Qed.

Lemma fallback_reachable_open (p : AuthenticatorType) (st : DState) :
  reachable (Some p) st -> forall s e, st = DOpen s e -> fallback_step s.
Proof.
  induction 1 as [| st ev Hr IH]; intros s e Est.
  - injection Est as <- _. exists [VType p]. auto.
  - destruct st as [s0 e0 |]; simpl in Est; [| discriminate].
    specialize (IH s0 e0 eq_refl).
    destruct ev as [args | msg |].
    + destruct (on_next (Some p) s0 args) eqn:N; try discriminate.
      * injection Est as <- _. eapply fallback_step_on_next; eauto.
      * injection Est as <- _. exact IH.
    + injection Est as <- _. exact IH.
    + destruct (truthy (cancellable s0)); [discriminate |].
      injection Est as <- _. exact IH.
Qed.

Lemma fallback_step_not_recovery (s : Step) :
  fallback_step s ->
  (forall v, component s <> Some (CBackupRecoveryCodes v)) /\
  (forall args, steps_recoveryCodes args <> Some s).
Proof.
  intros [args [H | [H | H]]]; [| | ].
  - injection H as <-. split; [discriminate | intros a Ha; discriminate Ha].
  - unfold fallbackSteps_setup in H.
    destruct (title_of (arg args 0)), (subtitle_of (arg args 0)); try discriminate.
    injection H as <-. split; [discriminate |].
    intros a Ha. injection Ha as _ _ Hc _. discriminate Hc.
  - injection H as <-. split; [discriminate |].
    intros a Ha. injection Ha as _ _ Hc _. discriminate Hc.
Qed.

(** ** Claims *)

(** C1: on an advance from a step with successor key [k], a fallback
    session ([primaryMethod = Some p]) calls the [fallbackSteps] factory
    for [k] unless [k] is [recoveryCodes] (then the [steps] factory), in
    both cases with [p] appended to the forwarded arguments; a primary
    session calls the [steps] factory with exactly the forwarded
    arguments. *)
Theorem on_next_factory_resolution (primaryMethod : option AuthenticatorType)
  (s : Step) (k : StepKey) (args : list Value) :
  next s = Some k ->
  on_next primaryMethod s args =
    match primaryMethod with
    | Some p =>
        if StepKey_eqb k RecoveryCodes
        then call_factory (Some (steps k)) (args ++ [VType p])
        else call_factory (fallbackSteps k) (args ++ [VType p])
    | None => call_factory (Some (steps k)) args
    end.
Proof.
  intros Hk. unfold on_next. rewrite Hk.
  destruct primaryMethod as [p |], k; reflexivity.
Qed.

Lemma on_next_factory_resolution_witness :
  next (mkStep None None None (Some Finish) None) = Some Finish /\
  on_next (Some App) (mkStep None None None (Some Finish) None) [VType Sms] =
    call_factory (fallbackSteps Finish) [VType Sms; VType App].
Proof.
  split; [reflexivity |].
  apply (on_next_factory_resolution (Some App) _ Finish [VType Sms]).
  reflexivity.
Defined.

(** C2: in a session started in fallback mode no reachable open state
    has a [recoveryCodes] step as current step (neither its component nor
    a descriptor [steps.recoveryCodes] can produce), and the fallback
    [choose] and [setup] steps continue to [setup] and [finish]. *)
Theorem fallback_never_reaches_recoveryCodes (p : AuthenticatorType) (st : DState) :
  reachable (Some p) st ->
  (forall s e, st = DOpen s e ->
     (forall v, component s <> Some (CBackupRecoveryCodes v)) /\
     (forall args, steps_recoveryCodes args <> Some s) /\
     next s <> Some RecoveryCodes) /\
  (forall args s, fallbackSteps_choose args = Some s -> next s = Some Setup) /\
  (forall args s, fallbackSteps_setup args = Some s -> next s = Some Finish).
Proof.
  intros Hr. split; [| split].
  - intros s e Est.
    pose proof (fallback_reachable_open p st Hr s e Est) as Hf.
    destruct (fallback_step_not_recovery s Hf) as [H1 H2].
    split; [exact H1 | split; [exact H2 |]].
    destruct (fallback_step_next s Hf) as [E | [E | E]]; rewrite E; discriminate.
  - intros args s H. injection H as <-. reflexivity.
  - intros args s H. unfold fallbackSteps_setup in H.
    destruct (title_of (arg args 0)), (subtitle_of (arg args 0)); try discriminate.
    injection H as <-. reflexivity.
Qed.

Lemma fallback_never_reaches_recoveryCodes_witness :
  reachable (Some App) (initial_state (Some App)) /\
  next (match initial_state (Some App) with
        | DOpen s _ => s
        | DClosed => mkStep None None None None None
        end) <> Some RecoveryCodes.
Proof.
  split; [apply reach_init |].
  destruct (fallback_never_reaches_recoveryCodes App (initial_state (Some App))
              (reach_init (Some App))) as [H _].
  exact (proj2 (proj2 (H _ None eq_refl))).
Defined.

(** C3: the fallback [choose] step of a session started with primary
    method [m] offers [defaultAuthenticators] without [m]; for [app] that
    is exactly [sms; email]; and filtering any catalog by [m] never
    leaves [m] in it. *)
Theorem fallback_choose_excludes_primary (m : AuthenticatorType) :
  (exists s, initial_state (Some m) = DOpen s None /\
     component s = Some (CChooseAuthenticator
                           (without_method defaultAuthenticators (VType m)))) /\
  (forall x, In x (without_method defaultAuthenticators (VType m)) <->
             In x defaultAuthenticators /\ x <> m) /\
  without_method defaultAuthenticators (VType App) = [Sms; Email] /\
  (forall catalog, ~ In m (without_method catalog (VType m))).
Proof.
  split; [| split; [| split]].
  - eexists. split; reflexivity.
  - intros x. unfold without_method. rewrite filter_In.
    destruct x, m; simpl; intuition discriminate.
  - reflexivity.
  - intros catalog Hin. unfold without_method in Hin.
    apply filter_In in Hin as [_ Hb]. destruct m; discriminate Hb.
Qed.

(** C4 (failing input): in a primary session at the [setup] step of the
    authenticator app, the adapter rejects the code ["000000"]: the step
    stays, but the dialog's error message stays unset, because the
    [setup] component does not pass [onError] on to
    [AuthenticatorSelector]; the same holds at the fallback [setup] step
    for SMS, while a [reportError] event on that step does set it. *)
Theorem setup_rejected_code_sets_no_error :
  let st := deliver None (initial_state None) [EvNext [VAuth app_authenticator]] in
  let fb := deliver (Some App) (initial_state (Some App))
                [EvNext [VAuth sms_authenticator]] in
  (exists s, st = DOpen s None /\
     component s = Some (CAuthenticatorSelector (VAuth app_authenticator) false)) /\
  submit_code None st (Some "Invalid 2FA code") (Some "000000") =
    ([CallEnable App "000000"], st) /\
  (exists s, fb = DOpen s None /\
     component s = Some (CAuthenticatorSelector (VAuth sms_authenticator) true) /\
     dstep (Some App) fb (EvError "Invalid 2FA code") =
       DOpen s (Some "Invalid 2FA code")) /\
  submit_code (Some App) fb (Some "Invalid 2FA code") (Some "000000") =
    ([CallEnableFallback Sms "000000"], fb).
Proof.
  split; [| split; [| split]].
  - eexists. split; reflexivity.
  - reflexivity.
  - eexists. split; [reflexivity | split; reflexivity].
  - reflexivity.
Qed.

(** C5 (counterexample): a primary session whose [recoveryCodes] step
    reported ["Network error"] advances to [finish] with the message
    still set. *)
Lemma error_survives_advance :
  let st := deliver None (initial_state None)
              [EvNext [VAuth app_authenticator]; EvNext [VType App];
               EvError "Network error"] in
  (exists s, st = DOpen s (Some "Network error") /\
     component s = Some (CBackupRecoveryCodes (VType App))) /\
  (exists s', dstep None st (EvNext [VType App]) = DOpen s' (Some "Network error") /\
     component s' = Some (CTwoFactorEnabled (VType App))).
Proof.
  split; eexists; split; reflexivity.
Qed.

(** C5 (amended): the controller never clears the error message: a
    successful advance replaces the step and keeps the message as it
    was, and the message of an open dialog changes only through a
    [reportError] ([onError]) event, which sets it. *)
Theorem error_changes_only_by_report (primaryMethod : option AuthenticatorType)
  (s : Step) (e : option string) :
  (forall args s', on_next primaryMethod s args = NSetStep s' ->
     dstep primaryMethod (DOpen s e) (EvNext args) = DOpen s' e) /\
  (forall ev s' e', dstep primaryMethod (DOpen s e) ev = DOpen s' e' ->
     e' = e \/ exists msg, ev = EvError msg /\ e' = Some msg).
Proof.
  split.
  - intros args s' H. simpl. rewrite H. reflexivity.
  - intros [args | msg |] s' e' H; simpl in H.
    + left. destruct (on_next primaryMethod s args); inversion H; reflexivity.
    + right. exists msg. injection H as _ <-. auto.
    + left. destruct (truthy (cancellable s)); inversion H; reflexivity.
Qed.

Lemma error_changes_only_by_report_witness :
  dstep None (DOpen (mkStep None None None (Some Finish) None) (Some "x"))
    (EvNext [VType Sms]) =
  DOpen (mkStep None None (Some (CTwoFactorEnabled (VType Sms))) None None) (Some "x").
Proof.
  apply (proj1 (error_changes_only_by_report None
                  (mkStep None None None (Some Finish) None) (Some "x"))).
  reflexivity.
Defined.

(** C6: on a step without successor key [onNext] closes the dialog and
    calls no factory; both [finish] factories produce such steps. *)
Theorem terminal_next_closes (primaryMethod : option AuthenticatorType)
  (s : Step) (e : option string) (args : list Value) :
  next s = None ->
  on_next primaryMethod s args = NClose /\
  dstep primaryMethod (DOpen s e) (EvNext args) = DClosed /\
  (forall a s', steps_finish a = Some s' -> next s' = None) /\
  (forall a s', fallbackSteps_finish a = Some s' -> next s' = None).
Proof.
  intros Hn.
  assert (Ho : on_next primaryMethod s args = NClose).
  { unfold on_next. rewrite Hn. reflexivity. }
  simpl. rewrite Ho.
  split; [reflexivity | split; [reflexivity | split]];
    intros a s' H; injection H as <-; reflexivity.
Qed.

Lemma terminal_next_closes_witness :
  exists s, fallbackSteps_finish [VType Sms; VType App] = Some s /\
    next s = None /\
    dstep (Some App) (DOpen s None) (EvNext [VType Sms]) = DClosed.
Proof.
  eexists. split; [reflexivity |]. split; [reflexivity |].
  apply (terminal_next_closes (Some App) _ None [VType Sms]). reflexivity.
Defined.

(** C7: a code that is absent or not 6 characters long never reaches
    [enable]/[enableFallback]; a phone input rejected by the validator
    shows the validation message, and no number of clicks on "Send code"
    afterwards calls [setup]. *)
Theorem validation_failures_skip_adapter :
  (forall t isFallback hasOnError enableResult code,
     (code = None \/ exists c, code = Some c /\ String.length c <> 6) ->
     fst (selector_submit t isFallback hasOnError enableResult code) = []) /\
  (forall phone setupResult st number n,
     number <> "" -> phone number = None ->
     sms_error (sms_onChange phone st number) = Some invalid_phone_message /\
     sms_run phone setupResult st (SmsChange number :: repeat SmsClick n) =
       (sms_onChange phone st number, [])).
Proof.
  split.
  - intros t isF hasE r code [-> | [c [-> Hc]]]; [reflexivity |].
    unfold selector_submit, verify_form_submit.
    destruct (String.eqb c ""); [reflexivity |].
    apply Nat.eqb_neq in Hc. rewrite Hc. reflexivity.
  - intros phone r st number n Hne Hp.
    assert (Hch : sms_onChange phone st number =
              mkSmsState (Some invalid_phone_message) (Some "") (isSending st) (enabled st)).
    { unfold sms_onChange. apply String.eqb_neq in Hne. rewrite Hne, Hp. reflexivity. }
    split; [rewrite Hch; reflexivity |].
    simpl. rewrite Hch.
    assert (Hclicks : forall m,
      sms_run phone r (mkSmsState (Some invalid_phone_message) (Some "")
                         (isSending st) (enabled st)) (repeat SmsClick m) =
      (mkSmsState (Some invalid_phone_message) (Some "") (isSending st) (enabled st), [])).
    { induction m as [| m IH]; [reflexivity |].
      simpl. rewrite IH. reflexivity. }
    rewrite Hclicks. reflexivity.
Qed.

Lemma validation_failures_skip_adapter_witness :
  fst (selector_submit App false false None (Some "12345")) = [] /\
  sms_error (sms_onChange (fun _ => None) (mkSmsState None None false true) "notanumber")
    = Some invalid_phone_message /\
  sms_run (fun _ => None) None (mkSmsState None None false true)
    (SmsChange "notanumber" :: repeat SmsClick 3) =
    (sms_onChange (fun _ => None) (mkSmsState None None false true) "notanumber", []).
Proof.
  destruct validation_failures_skip_adapter as [H1 H2].
  split; [apply H1; right; exists "12345"; split; [reflexivity | discriminate] |].
  apply H2; [discriminate | reflexivity].
Defined.

(** C8: a cancel attempt on a step whose [cancellable] flag is not set
    leaves the dialog state as it was; the [finish] steps of both
    registries are such steps. *)
Theorem cancel_noncancellable_noop (primaryMethod : option AuthenticatorType)
  (s : Step) (e : option string) :
  truthy (cancellable s) = false ->
  dstep primaryMethod (DOpen s e) EvCancel = DOpen s e /\
  (forall a s', steps_finish a = Some s' -> truthy (cancellable s') = false) /\
  (forall a s', fallbackSteps_finish a = Some s' -> truthy (cancellable s') = false).
Proof.
  intros Hc. simpl. rewrite Hc.
  split; [reflexivity | split]; intros a s' H; injection H as <-; reflexivity.
Qed.

Lemma cancel_noncancellable_noop_witness :
  exists s, steps_finish [VType Email] = Some s /\
    dstep None (DOpen s (Some "x")) EvCancel = DOpen s (Some "x").
Proof.
  eexists. split; [reflexivity |].
  apply (cancel_noncancellable_noop None _ (Some "x")). reflexivity.
Defined.

(** C9: when the adapter returns a fresh set disjoint from the codes on
    display, regenerating displays exactly that set and none of the
    previous codes. *)
Theorem regenerate_replaces_codes (prior fresh : list string) :
  (forall c, In c fresh -> ~ In c prior) ->
  fst (generate prior (CodesArray fresh)) = fresh /\
  (forall c, In c (fst (generate prior (CodesArray fresh))) -> ~ In c prior).
Proof.
  intros Hd. simpl. split; [reflexivity | exact Hd].
Qed.

Lemma regenerate_replaces_codes_witness :
  fst (generate ["aaaa"; "bbbb"] (CodesArray ["cccc"; "dddd"])) = ["cccc"; "dddd"].
Proof.
  apply (regenerate_replaces_codes ["aaaa"; "bbbb"] ["cccc"; "dddd"]).
  intros c Hc Hp. simpl in Hc, Hp.
  destruct Hc as [<- | [<- | []]]; destruct Hp as [Hp | [Hp | []]]; discriminate Hp.
Defined.

(** C10 (counterexample): an adapter returning an empty array replaces
    the displayed codes with the empty set. *)
Lemma empty_codes_replace_display :
  fst (generate ["aaaa"] (CodesArray [])) = [] /\ ([] : list string) <> ["aaaa"].
Proof. split; [reflexivity | discriminate]. Qed.

(** C10 (amended): when the adapter call throws or yields [undefined]
    the displayed codes stay as they were, and after a throw the dialog
    shows the thrown message on the same step; any array returned
    (empty included) replaces the display. *)
Theorem generate_failure_keeps_codes (primaryMethod : option AuthenticatorType)
  (s : Step) (e : option string) (prior : list string) :
  (forall message,
     fst (generate prior (CodesThrow message)) = prior /\
     deliver primaryMethod (DOpen s e) (snd (generate prior (CodesThrow message)))
       = DOpen s (Some message)) /\
  fst (generate prior CodesUndefined) = prior /\
  (forall fresh, fst (generate prior (CodesArray fresh)) = fresh).
Proof.
  split; [| split]; [intros message; split | |]; reflexivity.
Qed.

(** ** Further properties of the code *)










(** X4: submitting the choose form with a remembered selection index
    past the end of the offered list (the index is session state shared
    by the primary and fallback dialogs) forwards [undefined]; the
    [setup] factory then throws and the dialog stays on [choose]. *)
Theorem choose_stale_selection_stays (primaryMethod : option AuthenticatorType) (i : nat) :
  length (offered primaryMethod) <= i ->
  act primaryMethod (initial_state primaryMethod) (UChoose i) =
    ([], initial_state primaryMethod).
Proof.
  intros Hi.
  assert (Hu : choose_submit (offered primaryMethod) i = VUndefined).
  { unfold choose_submit. apply nth_overflow. rewrite length_map. exact Hi. }
  destruct primaryMethod as [p |]; simpl in *; rewrite Hu; reflexivity.
Qed.

Lemma choose_stale_selection_stays_witness :
  length (offered (Some App)) <= 2 /\
  act (Some App) (initial_state (Some App)) (UChoose 2) = ([], initial_state (Some App)).
Proof.
  split; [simpl; repeat constructor |].
  apply choose_stale_selection_stays. simpl. repeat constructor.
Defined.

Ltac sms_simp Hs Hp Hn :=
  unfold sms_run, sms_step, sms_onChange, sms_onClick, sms_action_disabled, str_truthy;
  do 6 (simpl; rewrite ?Hs, ?Hp, ?Hn).

(** X5: after a valid phone input, "Send code" sends the validator's
    normalized number, once: a successful send starts the resend
    cool-down ([enabled] false), so a second click sends nothing. *)
Theorem sms_send_once (phone : string -> option string) (st : SmsState)
  (number n : string) :
  String.eqb number "" = false -> phone number = Some n -> String.eqb n "" = false ->
  isSending st = false -> enabled st = true ->
  snd (sms_run phone None st [SmsChange number; SmsClick; SmsClick]) =
    [CallSetup Sms (Some n)] /\
  enabled (fst (sms_run phone None st [SmsChange number; SmsClick; SmsClick])) = false.
Proof.
  intros Hs Hp Hn Hi He. destruct st as [e0 p0 i0 en0]; simpl in Hi, He; subst.
  sms_simp Hs Hp Hn. split; reflexivity.
Qed.

Lemma sms_send_once_witness :
  snd (sms_run (fun _ => Some "+1234567890") None (mkSmsState None None false true)
         [SmsChange "+1 234 567 890"; SmsClick; SmsClick]) =
    [CallSetup Sms (Some "+1234567890")] /\
  enabled (fst (sms_run (fun _ => Some "+1234567890") None (mkSmsState None None false true)
         [SmsChange "+1 234 567 890"; SmsClick; SmsClick])) = false.
Proof. apply sms_send_once; reflexivity. Defined.

(** X6: when the adapter's [setup] fails, the error message is shown and
    the action stays disabled (its [disabled] includes [error]): further
    clicks send nothing until the number is edited again, after which a
    click sends again. *)
Theorem sms_failure_blocks_until_edit (phone : string -> option string) (st : SmsState)
  (number n message : string) :
  String.eqb number "" = false -> phone number = Some n -> String.eqb n "" = false ->
  String.eqb message "" = false ->
  isSending st = false -> enabled st = true ->
  sms_error (fst (sms_run phone (Some message) st [SmsChange number; SmsClick; SmsClick]))
    = Some message /\
  snd (sms_run phone (Some message) st [SmsChange number; SmsClick; SmsClick]) =
    [CallSetup Sms (Some n)] /\
  snd (sms_run phone (Some message) st
         [SmsChange number; SmsClick; SmsClick; SmsChange number; SmsClick]) =
    [CallSetup Sms (Some n); CallSetup Sms (Some n)].
Proof.
  intros Hs Hp Hn Hm Hi He. destruct st as [e0 p0 i0 en0]; simpl in Hi, He; subst.
  sms_simp Hs Hp Hn. rewrite Hm. cbn. sms_simp Hs Hp Hn.
  split; [reflexivity | split; reflexivity].
Qed.

Lemma sms_failure_blocks_until_edit_witness :
  sms_error (fst (sms_run (fun _ => Some "+1234567890") (Some "Rate limited")
    (mkSmsState None None false true) [SmsChange "+1234567890"; SmsClick; SmsClick]))
    = Some "Rate limited" /\
  snd (sms_run (fun _ => Some "+1234567890") (Some "Rate limited")
    (mkSmsState None None false true) [SmsChange "+1234567890"; SmsClick; SmsClick]) =
    [CallSetup Sms (Some "+1234567890")] /\
  snd (sms_run (fun _ => Some "+1234567890") (Some "Rate limited")
    (mkSmsState None None false true)
    [SmsChange "+1234567890"; SmsClick; SmsClick; SmsChange "+1234567890"; SmsClick]) =
    [CallSetup Sms (Some "+1234567890"); CallSetup Sms (Some "+1234567890")].
Proof. apply sms_failure_blocks_until_edit; reflexivity. Defined.



(** X8: on the email step, a run of clicks on "Send code" from an
    enabled, idle button sends the code once when the first send
    succeeds (the cool-down then disables the button), and retries on
    every click while [setup] keeps failing. *)
Theorem email_send_cooldown (st : EmailState) (message : string) (n : nat) :
  email_isSending st = false -> email_enabled st = true ->
  snd (email_clicks None st (S n)) = [CallSetup Email None] /\
  snd (email_clicks (Some message) st n) = repeat (CallSetup Email None) n.
Proof.
  intros Hi He. destruct st as [e0 i0 en0]; simpl in Hi, He; subst.
  split.
  - simpl.
    assert (Hoff : forall k, email_clicks None (mkEmailState e0 false false) k =
                             (mkEmailState e0 false false, [])).
    { induction k as [| k IH]; [reflexivity | simpl; rewrite IH; reflexivity]. }
    rewrite Hoff. reflexivity.
  - revert e0. induction n as [| n IH]; intros e0; [reflexivity |].
    simpl. specialize (IH (Some message)).
    destruct (email_clicks (Some message) (mkEmailState (Some message) false true) n)
      as [st2 c2] eqn:E.
    simpl in IH |- *. rewrite IH. reflexivity.
Qed.

Lemma email_send_cooldown_witness :
  snd (email_clicks None (mkEmailState None false true) 3) = [CallSetup Email None] /\
  snd (email_clicks (Some "Network error") (mkEmailState None false true) 2) =
    [CallSetup Email None; CallSetup Email None].
Proof.
  exact (email_send_cooldown (mkEmailState None false true) "Network error" 2
           eq_refl eq_refl).
Defined.

Lemma split_lines_no_newline (a : string) :
  has_newline a = false -> split_lines a = [a].
Proof.
  induction a as [| ch a IH]; [reflexivity |].
  simpl. intros H. apply orb_false_iff in H as [H1 H2].
  rewrite H1, (IH H2). reflexivity.
Qed.

Lemma split_lines_app (a rest : string) :
  has_newline a = false ->
  split_lines (a ++ String newline rest) = a :: split_lines rest.
Proof.
  induction a as [| ch a IH]; [reflexivity |].
  simpl. intros H. apply orb_false_iff in H as [H1 H2].
  rewrite H1, (IH H2). reflexivity.
Qed.

(** X9: the text copied or downloaded from the recovery-codes step
    ([codes.join("\n")]) lists the codes one per line: splitting it at
    newlines gives back exactly the codes, in order, for any non-empty
    list of codes without newlines. *)
Theorem recovery_codes_export_lines (codes : list string) :
  codes <> [] -> Forall (fun c => has_newline c = false) codes ->
  split_lines (join_lines codes) = codes.
Proof.
  intros Hne Hf. induction codes as [| c rest IH]; [contradiction |].
  inversion Hf as [| ? ? Hc Hrest]; subst.
  destruct rest as [| c' rest'].
  - simpl. apply split_lines_no_newline. exact Hc.
  - change (join_lines (c :: c' :: rest'))
      with (String.append c (String newline (join_lines (c' :: rest')))).
    rewrite (split_lines_app c _ Hc), IH; [reflexivity | discriminate | exact Hrest].
Qed.

Lemma recovery_codes_export_lines_witness :
  split_lines (join_lines ["abcd-1234"; "efgh-5678"; "ijkl-9012"]) =
    ["abcd-1234"; "efgh-5678"; "ijkl-9012"].
Proof.
  apply recovery_codes_export_lines; [discriminate | repeat constructor].
Defined.

(** X10: [mfaMethodToPhrase] names different methods differently, so the
    fallback confirmation ("... on your <fallback> in case you lose
    access to your <primary>") never names two different methods
    alike. *)
Theorem mfaMethodToPhrase_injective (a b : AuthenticatorType) :
  mfaMethodToPhrase a = mfaMethodToPhrase b -> a = b.
Proof. destruct a, b; simpl; congruence. Qed.

Lemma mfaMethodToPhrase_injective_witness : App = App.
Proof. apply (mfaMethodToPhrase_injective App App). reflexivity. Defined.

Lemma opt_eqb_true_iff {A} (eqb : A -> A -> bool) :
  (forall a b, eqb a b = true <-> a = b) ->
  forall x y, opt_eqb eqb x y = true <-> x = y.
Proof.
  intros Heq [a |] [b |]; simpl; split; intros H; try discriminate; try reflexivity.
  - f_equal. apply Heq. exact H.
  - apply Heq. injection H as ->. reflexivity.
Qed.

(** X11: the notebook list item re-renders exactly when [pinned],
    [title], [description] or the number of topics changes; in
    particular a change of [dateCreated], [id] or of topic titles alone
    does not re-render it. *)
Theorem notebook_update_iff (prevItem nextItem : Notebook) :
  shouldComponentUpdate prevItem nextItem = false <->
  nb_pinned prevItem = nb_pinned nextItem /\
  nb_title prevItem = nb_title nextItem /\
  nb_description prevItem = nb_description nextItem /\
  length (nb_topics prevItem) = length (nb_topics nextItem).
Proof.
  unfold shouldComponentUpdate.
  rewrite !orb_false_iff, !negb_false_iff,
    (opt_eqb_true_iff Bool.eqb (fun a b => Bool.eqb_true_iff a b)),
    !(opt_eqb_true_iff String.eqb String.eqb_eq), Nat.eqb_eq.
  tauto.
Qed.

(** X12: the footer shows at most three topic tags, the first topics in
    order, each navigating to [/notebooks/<notebook id>/<topic id>]. *)
Theorem notebook_topic_tags_first_three (notebook : Notebook) :
  length (topic_tags notebook) = Nat.min 3 (length (nb_topics notebook)) /\
  forall k topic, k < 3 -> nth_error (nb_topics notebook) k = Some topic ->
    nth_error (topic_tags notebook) k =
      Some (topic_title topic,
            ("/notebooks/" ++ nb_id notebook ++ "/" ++ topic_id topic)%string).
Proof.
  unfold topic_tags. split.
  - rewrite length_map, length_firstn. reflexivity.
  - intros k topic Hk Ht.
    rewrite nth_error_map, nth_error_firstn.
    destruct (Nat.ltb_spec k 3) as [_ | Hge]; [| exfalso; apply (Nat.lt_irrefl k);
      eapply Nat.lt_le_trans; [exact Hk | exact Hge]].
    rewrite Ht. reflexivity.
Qed.

Lemma notebook_topic_tags_first_three_witness :
  nth_error (topic_tags (mkNotebook "nb1" (Some "Work") None None
                           [mkTopic "t1" "General"; mkTopic "t2" "Ideas"] 1)) 1 =
    Some ("Ideas", "/notebooks/nb1/t2").
Proof.
  apply (proj2 (notebook_topic_tags_first_three
                  (mkNotebook "nb1" (Some "Work") None None
                     [mkTopic "t1" "General"; mkTopic "t2" "Ideas"] 1)) 1
                  (mkTopic "t2" "Ideas")).
  - repeat constructor.
  - reflexivity.
Defined.

Lemma count_type_pos (t : string) (sel : list Item) (x : Item) :
  In x sel -> it_type x = t -> 0 < count_type t sel.
Proof.
  intros Hin Ht. unfold count_type.
  destruct (filter (fun o => String.eqb (it_type o) t) sel) eqn:F.
  - exfalso. assert (Hx : In x (filter (fun o => String.eqb (it_type o) t) sel)).
    { apply filter_In. split; [exact Hin | apply String.eqb_eq; exact Ht]. }
    rewrite F in Hx. exact Hx.
  - simpl. apply Nat.lt_0_succ.
Qed.

Lemma count_type_all (t u : string) (sel : list Item) :
  Forall (fun it => it_type it = t) sel ->
  count_type u sel = if String.eqb t u then length sel else 0.
Proof.
  intros Hf. unfold count_type. induction Hf as [| x sel Hx Hf IH]; simpl.
  - destruct (String.eqb t u); reflexivity.
  - rewrite Hx. destruct (String.eqb t u); simpl; rewrite IH; reflexivity.
Qed.

(** X13: deleting a non-empty selection made only of notes toasts
    "<n> note moved to trash" / "<n> notes moved to trash" with the
    selection's size; a selection mixing two of the kinds note, notebook
    and topic gets an [undefined] toast message. *)
Theorem delete_message_cases :
  (forall sel, sel <> [] -> Forall (fun it => it_type it = "note") sel ->
     delete_message sel =
       Some (string_of_nat (length sel) ++
             (if Nat.ltb 1 (length sel) then " notes" else " note") ++
             " moved to trash")%string) /\
  (forall sel a b, In a sel -> In b sel -> it_type a <> it_type b ->
     In (it_type a) ["note"; "notebook"; "topic"] ->
     In (it_type b) ["note"; "notebook"; "topic"] ->
     delete_message sel = None).
Proof.
  split.
  - intros sel Hne Hf. unfold delete_message. cbv zeta.
    rewrite !(count_type_all "note" _ sel Hf). simpl.
    destruct sel as [| x sel']; [contradiction |]. reflexivity.
  - intros sel a b Ha Hb Hab Hta Htb.
    pose proof (count_type_pos (it_type a) sel a Ha eq_refl) as Pa.
    pose proof (count_type_pos (it_type b) sel b Hb eq_refl) as Pb.
    unfold delete_message. cbv zeta.
    simpl in Hta, Htb.
    destruct Hta as [Ta | [Ta | [Ta | []]]]; destruct Htb as [Tb | [Tb | [Tb | []]]];
      rewrite <- ?Ta, <- ?Tb in *; try (exfalso; apply Hab; congruence);
      rewrite ?Ta, ?Tb in Pa, Pb.
    all: destruct (count_type "note" sel), (count_type "notebook" sel),
           (count_type "topic" sel); inversion Pa; inversion Pb; reflexivity.
Qed.

Lemma delete_message_cases_witness :
  delete_message [mkItem "note" "n1" "A" "" (Some 5)] = Some "1 note moved to trash" /\
  delete_message [mkItem "note" "n1" "A" "" (Some 5); mkItem "notebook" "b1" "B" "" (Some 7)]
    = None.
Proof.
  destruct delete_message_cases as [H1 H2]. split.
  - exact (H1 [mkItem "note" "n1" "A" "" (Some 5)] ltac:(discriminate)
             ltac:(repeat constructor)).
  - apply (H2 _ (mkItem "note" "n1" "A" "" (Some 5)) (mkItem "notebook" "b1" "B" "" (Some 7)));
      simpl; auto; discriminate.
Defined.





(** X15: "move to trash" with an empty selection on an item without a
    creation date throws when reading the first selected item's type,
    after the [PINNED] update and before the dialog is hidden; no
    database call is made. *)
Theorem delete_empty_selection_throws (item : Item) :
  date_truthy (it_dateCreated item) = false ->
  onPress ACTION_DELETE item [] = mkOutcome [Update UPinned] [] true.
Proof.
  intros Hd. unfold onPress, default_selection. rewrite Hd. reflexivity.
Qed.

Lemma delete_empty_selection_throws_witness :
  onPress ACTION_DELETE (mkItem "note" "n1" "A" "" None) [] = mkOutcome [Update UPinned] [] true.
Proof. apply delete_empty_selection_throws. reflexivity. Defined.


